(** * L9110 servo / DC-motor driver over I2C: command-frame encoding

    Shallow embedding of [src/MKE_M17/MKE_M17/L9110_I2C.py] (class [L9110]).

    Python integers are unbounded, so every numeric value is a [Z]: [//] is
    [Z.div] (both round toward minus infinity and give the remainder the sign
    of the divisor), [>>] is [Z.shiftr], [&] is [Z.land].  The arguments are
    taken to be [int]s throughout.

    The object [self] is the state threaded through every method.  Its
    attribute [bus] is the [smbus2.SMBus] handle, an external collaborator:
    we keep, for the handle, the list of block writes requested through it,
    and take the outcome of a write (completes, or raises [IOError]) as a
    parameter of the development.  The [print] calls of the source write to
    the standard output only and are left out; so is the teardown
    ([__exit__], [__del__]). *)

From stdpp Require Import base list numbers.
From Stdlib Require Import ZArith Lia QArith Qround.

Local Open Scope Z_scope.

(** ** Exceptions and results *)

(** The exceptions the embedded fragment can raise on integer arguments. *)
Inductive exn : Type :=
  | ZeroDivisionError
  | IndexError.

Inductive result (A : Type) : Type :=
  | Ret (a : A)
  | Raise (e : exn).

Arguments Ret {A} a.
Arguments Raise {A} e.

(** ** The bus collaborator *)

(** One call [bus.write_i2c_block_data(i2c_addr, register, block)]. *)
Record BlockWrite : Type := mkBlockWrite {
  i2c_addr : Z;
  register : Z;
  block : list Z
}.

(** The [SMBus] handle: the bus number it was opened on and the writes
    requested so far, oldest first. *)
Record SMBus : Type := mkSMBus {
  bus_number : Z;
  written : list BlockWrite
}.

(** ** The driver object *)

Record L9110 : Type := mkL9110 {
  address : Z;
  bus : SMBus;
  min_degree : Z;
  max_degree : Z;
  min_pulse : Z;
  max_pulse : Z
}.

Module Const.
Definition MODE_RC : Z := 0.
Definition S1 : Z := 1.
Definition S2 : Z := 2.
Definition MODE_DC : Z := 1.
Definition MA : Z := 0.
Definition MB : Z := 1.
Definition CW : Z := 0.
Definition CCW : Z := 1.
Definition MODE_SET_ADDR : Z := 2.
End Const.
Import Const.

(** [L9110.__init__]: [address] defaults to [0x40] and [bus_number] to [1]. *)
Definition __init__ (address bus_number : Z) : L9110 :=
  {| address := address;
     bus := {| bus_number := bus_number; written := [] |};
     min_degree := 0;
     max_degree := 180;
     min_pulse := 500;
     max_pulse := 2500 |}.

Definition default_address : Z := 0x40.
Definition default_bus_number : Z := 1.

(** ** Methods: state passing over [self], with exceptions *)

Definition Method (A : Type) : Type := L9110 -> result A * L9110.

#[global] Instance Method_ret : MRet Method :=
  fun A a self => (Ret a, self).

#[global] Instance Method_bind : MBind Method :=
  fun A B f m self =>
    match m self with
    | (Ret a, self') => f a self'
    | (Raise e, self') => (Raise e, self')
    end.

Definition get_self : Method L9110 := fun self => (Ret self, self).
Definition set_self (f : L9110 -> L9110) : Method unit :=
  fun self => (Ret tt, f self).
Definition raise {A} (e : exn) : Method A := fun self => (Raise e, self).

(** Attribute assignments [self.x = v]. *)
Definition with_address (v : Z) (self : L9110) : L9110 :=
  {| address := v; bus := bus self;
     min_degree := min_degree self; max_degree := max_degree self;
     min_pulse := min_pulse self; max_pulse := max_pulse self |}.
Definition with_min_degree (v : Z) (self : L9110) : L9110 :=
  {| address := address self; bus := bus self;
     min_degree := v; max_degree := max_degree self;
     min_pulse := min_pulse self; max_pulse := max_pulse self |}.
Definition with_max_degree (v : Z) (self : L9110) : L9110 :=
  {| address := address self; bus := bus self;
     min_degree := min_degree self; max_degree := v;
     min_pulse := min_pulse self; max_pulse := max_pulse self |}.
Definition with_min_pulse (v : Z) (self : L9110) : L9110 :=
  {| address := address self; bus := bus self;
     min_degree := min_degree self; max_degree := max_degree self;
     min_pulse := v; max_pulse := max_pulse self |}.
Definition with_max_pulse (v : Z) (self : L9110) : L9110 :=
  {| address := address self; bus := bus self;
     min_degree := min_degree self; max_degree := max_degree self;
     min_pulse := min_pulse self; max_pulse := v |}.
Definition with_bus (b : SMBus) (self : L9110) : L9110 :=
  {| address := address self; bus := b;
     min_degree := min_degree self; max_degree := max_degree self;
     min_pulse := min_pulse self; max_pulse := max_pulse self |}.

(** The handle after one more write has been requested through it. *)
Definition record_write (w : BlockWrite) (self : L9110) : L9110 :=
  with_bus {| bus_number := bus_number (bus self);
              written := written (bus self) ++ [w] |} self.

(** ** Range mapping *)

(** [_map_range]:
    [(x - in_min) * (out_max - out_min) // (in_max - in_min) + out_min].
    An integer [//] by zero raises [ZeroDivisionError]. *)
Definition _map_range (x in_min in_max out_min out_max : Z) : Method Z :=
  if in_max - in_min =? 0 then raise ZeroDivisionError
  else mret ((x - in_min) * (out_max - out_min) / (in_max - in_min) + out_min).

(** ** Range configuration *)

(** [set_range_degree]: the guard is the chained comparison
    [0 <= min_degree < max_degree <= 360]. *)
Definition set_range_degree (min_degree max_degree : Z) : Method bool :=
  if negb ((0 <=? min_degree) && (min_degree <? max_degree) && (max_degree <=? 360))
  then mret false
  else
    set_self (with_min_degree min_degree);;
    set_self (with_max_degree max_degree);;
    mret true.

(** [set_range_pulse]: the guard is [0 <= min_pulse < max_pulse <= 2815]. *)
Definition set_range_pulse (min_pulse max_pulse : Z) : Method bool :=
  if negb ((0 <=? min_pulse) && (min_pulse <? max_pulse) && (max_pulse <=? 2815))
  then mret false
  else
    set_self (with_min_pulse min_pulse);;
    set_self (with_max_pulse max_pulse);;
    mret true.

(** ** Transmission and the three commands *)

Section Driver.

(** The collaborator [SMBus.write_i2c_block_data]: given the handle (with
    the writes made so far) and the arguments of the call, [true] when the
    write completes and [false] when it raises [IOError]. *)
Variable write_i2c_block_data : SMBus -> Z -> Z -> list Z -> bool.

(** The call itself: the write is recorded on the handle whether or not
    it completes. *)
Definition bus_write (i2c_addr register : Z) (block : list Z) : Method bool :=
  fun self =>
    (Ret (write_i2c_block_data (bus self) i2c_addr register block),
     record_write (mkBlockWrite i2c_addr register block) self).

(** [_send_data]: [data[0]] on an empty list raises [IndexError]; the
    slice [data[1:]] is the rest of the list.  The [try] turns an
    [IOError] into the result [False]. *)
Definition _send_data (data : list Z) : Method bool :=
  self ← get_self;
  match data with
  | [] => raise IndexError
  | data_0 :: data_1_ =>
      ok ← bus_write (address self) data_0 data_1_;
      if ok : bool then mret true else mret false
  end.

(** [sum(data)]: the left fold of [+] from [0]. *)
Definition sum (data : list Z) : Z := foldl Z.add 0 data.

(** Lines 132-136 of [control_servo]: the frame that is sent.  The
    assignments [data[i] = v] are at indices 2, 3 and 4 of a list of
    length 5, so none is out of range. *)
Definition control_servo_data (servo_id degree : Z) : Method (list Z) :=
  self ← get_self;
  let data := [MODE_RC; servo_id; 0; 0; 0] in
  pulse ← _map_range degree (min_degree self) (max_degree self)
                     (min_pulse self) (max_pulse self);
  let data := <[2%nat := pulse ≫ 8]> data in
  let data := <[3%nat := Z.land pulse 0xFF]> data in
  let data := <[4%nat := Z.land (sum data) 0xFF]> data in
  mret data.

Definition control_servo (servo_id degree : Z) : Method bool :=
  self ← get_self;
  if negb ((min_degree self <=? degree) && (degree <=? max_degree self))
  then mret false
  else
    data ← control_servo_data servo_id degree;
    _send_data data.

(** Lines 158-161 of [control_motor]. *)
Definition control_motor_data (motor_id percent direction : Z) : Method (list Z) :=
  let data := [MODE_DC; motor_id; 0; 0; 0] in
  speed ← _map_range percent 0 100 0 255;
  let data := <[2%nat := speed]> data in
  let data := <[3%nat := direction]> data in
  let data := <[4%nat := Z.land (sum data) 0xFF]> data in
  mret data.

Definition control_motor (motor_id percent direction : Z) : Method bool :=
  if negb ((0 <=? percent) && (percent <=? 100)) then mret false
  else if negb ((direction =? CW) || (direction =? CCW)) then mret false
  else
    data ← control_motor_data motor_id percent direction;
    _send_data data.

(** Line 178 of [set_address]. *)
Definition set_address_data (new_address : Z) : list Z :=
  [MODE_SET_ADDR; 0; 0; 0; new_address + MODE_SET_ADDR].

Definition set_address (new_address : Z) : Method bool :=
  if negb ((0x40 <=? new_address) && (new_address <=? 0x44)) then mret false
  else
    let data := set_address_data new_address in
    sent ← _send_data data;
    if sent : bool then
      set_self (with_address new_address);;
      mret true
    else mret false.

(** ** The public interface as one type of calls *)

Inductive call : Type :=
  | SetRangeDegree (min_degree max_degree : Z)
  | SetRangePulse (min_pulse max_pulse : Z)
  | ControlServo (servo_id degree : Z)
  | ControlMotor (motor_id percent direction : Z)
  | SetAddress (new_address : Z).

Definition run (c : call) : Method bool :=
  match c with
  | SetRangeDegree mn mx => set_range_degree mn mx
  | SetRangePulse mn mx => set_range_pulse mn mx
  | ControlServo servo_id degree => control_servo servo_id degree
  | ControlMotor motor_id percent direction =>
      control_motor motor_id percent direction
  | SetAddress new_address => set_address new_address
  end.

(** Byte 0 of the frame a call sends, when it sends one. *)
Definition mode_of (c : call) : option Z :=
  match c with
  | ControlServo _ _ => Some MODE_RC
  | ControlMotor _ _ _ => Some MODE_DC
  | SetAddress _ => Some MODE_SET_ADDR
  | _ => None
  end.

(** The objects a program can reach: a fresh driver, then any calls. *)
Inductive reachable : L9110 -> Prop :=
  | reach_init address bus_number : reachable (__init__ address bus_number)
  | reach_call c self : reachable self -> reachable (snd (run c self)).

(** The invariant of the configuration (spec, data model). *)
Definition config_ok (self : L9110) : Prop :=
  (0 <= min_degree self /\ min_degree self < max_degree self
   /\ max_degree self <= 360) /\
  (0 <= min_pulse self /\ min_pulse self < max_pulse self
   /\ max_pulse self <= 2815).

(** A frame whose last byte is the additive 8-bit checksum of the other
    four. *)
Definition checksum_ok (frame : list Z) : Prop :=
  exists b0 b1 b2 b3,
    frame = [b0; b1; b2; b3; Z.land (b0 + b1 + b2 + b3) 0xFF].

End Driver.

(** Two concrete buses for the examples: one on which every write
    completes, one on which every write raises [IOError]. *)
Definition bus_up : SMBus -> Z -> Z -> list Z -> bool := fun _ _ _ _ => true.
Definition bus_down : SMBus -> Z -> Z -> list Z -> bool := fun _ _ _ _ => false.

Definition fresh : L9110 := __init__ default_address default_bus_number.

(** A reachable object that is not a fresh one: degrees narrowed to
    10..90. *)
Definition narrowed : L9110 := snd (run bus_up (SetRangeDegree 10 90) fresh).

(** ** Specification-side definitions *)

(** The specification's wording of the mapping: the exact rational
    quotient, rounded toward minus infinity, plus [outMin]. *)
Definition mapRange_spec (x inMin inMax outMin outMax : Z) : Z :=
  Qfloor (Qdiv (inject_Z ((x - inMin) * (outMax - outMin)))
               (inject_Z (inMax - inMin)))
  + outMin.

(** The pulse width [control_servo] computes for a degree. *)
Definition servo_pulse (self : L9110) (degree : Z) : Z :=
  (degree - min_degree self) * (max_pulse self - min_pulse self)
  / (max_degree self - min_degree self) + min_pulse self.

(** The speed byte [control_motor] computes for a percentage. *)
Definition motor_speed (percent : Z) : Z := percent * 255 / 100.

(** The frames of the two motion commands, as functions of the object and
    the arguments. *)
Definition servo_frame (self : L9110) (servo_id degree : Z) : list Z :=
  let pulse := servo_pulse self degree in
  [MODE_RC; servo_id; pulse ≫ 8; Z.land pulse 0xFF;
   Z.land (MODE_RC + servo_id + pulse ≫ 8 + Z.land pulse 0xFF) 0xFF].

Definition motor_frame (motor_id percent direction : Z) : list Z :=
  [MODE_DC; motor_id; motor_speed percent; direction;
   Z.land (MODE_DC + motor_id + motor_speed percent + direction) 0xFF].

(** ** Clients and traces *)

(** A straight-line client: the calls made one after the other on the
    same object, results dropped. *)
Definition run_all (write_i2c_block_data : SMBus -> Z -> Z -> list Z -> bool)
    (cs : list call) (self : L9110) : L9110 :=
  foldl (fun s c => snd (run write_i2c_block_data c s)) self cs.

(** A value that fits in one byte. *)
Definition is_byte (b : Z) : Prop := 0 <= b <= 255.

(** What the device can receive: a motion frame (register [MODE_RC] or
    [MODE_DC]) with its additive checksum, or an address change carrying an
    address of 0x40..0x44 plus the mode code. *)
Definition wf_write (w : BlockWrite) : Prop :=
  ((register w = MODE_RC \/ register w = MODE_DC) /\
   checksum_ok (register w :: block w)) \/
  (register w = MODE_SET_ADDR /\
   exists a, 0x40 <= a <= 0x44 /\ block w = [0; 0; 0; a + MODE_SET_ADDR]).

(** The addresses a driver constructed at [a] can hold or write to. *)
Definition address_ok (a x : Z) : Prop := x = a \/ 0x40 <= x <= 0x44.

(** The four stored range bounds of an object. *)
Definition ranges (self : L9110) : Z * Z * Z * Z :=
  (min_degree self, max_degree self, min_pulse self, max_pulse self).

(** * Properties *)

(** Unfolds the method combinators down to pairs of a result and an
    object. *)
Ltac method_unfold :=
  unfold set_address, control_motor, control_servo,
         control_motor_data, control_servo_data, set_address_data,
         set_range_degree, set_range_pulse, _send_data, bus_write, _map_range,
         record_write,
         mbind, mret, Method_bind, Method_ret, get_self, set_self, raise in *.

(** Decides a boolean comparison on [Z] by [lia], in either direction. *)
Ltac zbool :=
  repeat match goal with
    | |- context [?a <=? ?b] =>
        first [ replace (a <=? b) with true by (symmetry; apply Z.leb_le; lia)
              | replace (a <=? b) with false by (symmetry; apply Z.leb_gt; lia) ]
    | |- context [?a <? ?b] =>
        first [ replace (a <? b) with true by (symmetry; apply Z.ltb_lt; lia)
              | replace (a <? b) with false by (symmetry; apply Z.ltb_ge; lia) ]
    | |- context [?a =? ?b] =>
        first [ replace (a =? b) with true by (symmetry; apply Z.eqb_eq; lia)
              | replace (a =? b) with false by (symmetry; apply Z.eqb_neq; lia) ]
    end.

(** ** The methods on a fresh driver *)

Example control_servo_fresh :
  control_servo bus_up S1 90 fresh
  = (Ret true, record_write (mkBlockWrite 0x40 0 [1; 5; 220; 226]) fresh).
Proof. reflexivity. Qed.

Example control_motor_fresh_down :
  control_motor bus_down MA 50 CW fresh
  = (Ret false, record_write (mkBlockWrite 0x40 1 [0; 127; 0; 128]) fresh).
Proof. reflexivity. Qed.

Example map_range_zero_width :
  fst (_map_range 5 3 3 0 10 fresh) = Raise ZeroDivisionError.
Proof. reflexivity. Qed.

(** ** Range mapping *)

(** Python's [//] on integers is the floor of the rational quotient. *)
Lemma Qfloor_div_Z (n d : Z) :
  d <> 0 -> Qfloor (Qdiv (inject_Z n) (inject_Z d)) = n / d.
Proof.
  intros Hd. unfold Qdiv, Qinv, Qmult, inject_Z.
  destruct d as [|p|p]; [congruence| |]; cbn [Qnum Qden Qfloor].
  - now rewrite Z.mul_1_r, Pos.mul_1_l.
  - rewrite Pos.mul_1_l.
    replace (n * Z.neg 1) with (- n) by lia.
    change (Z.neg p) with (- Z.pos p).
    rewrite <- (Z.div_opp_opp (- n) (Z.pos p)) by lia.
    now rewrite Z.opp_involutive.
Qed.

(** The quotient taken by [_map_range] lies within one unit below the
    exact rational quotient. *)
Lemma map_range_quotient_bounds (n d : Z) :
  d <> 0 ->
  (Qle (inject_Z (n / d)) (Qdiv (inject_Z n) (inject_Z d)) /\
   Qlt (Qdiv (inject_Z n) (inject_Z d)) (inject_Z (n / d + 1))).
Proof.
  intros Hd. rewrite <- (Qfloor_div_Z n d Hd). split.
  - apply Qfloor_le.
  - apply Qlt_floor.
Qed.

(** C3. For integers with [inMax <> inMin], [_map_range] returns
    [floor ((x - inMin) * (outMax - outMin) / (inMax - inMin)) + outMin],
    the quotient rounded toward minus infinity, and leaves the object as it
    is; in particular it maps 90, 0 and 180 from 0..180 into 500..2500 to
    1500, 500 and 2500. *)
Theorem map_range_floor (self : L9110) :
  (forall x inMin inMax outMin outMax,
      inMax <> inMin ->
      _map_range x inMin inMax outMin outMax self
      = (Ret (mapRange_spec x inMin inMax outMin outMax), self)) /\
  (forall x inMin inMax outMin outMax,
      inMax <> inMin ->
      let exact := Qdiv (inject_Z ((x - inMin) * (outMax - outMin)))
                        (inject_Z (inMax - inMin)) in
      let floored := mapRange_spec x inMin inMax outMin outMax - outMin in
      Qle (inject_Z floored) exact /\ Qlt exact (inject_Z (floored + 1))) /\
  _map_range 90 0 180 500 2500 self = (Ret 1500, self) /\
  _map_range 0 0 180 500 2500 self = (Ret 500, self) /\
  _map_range 180 0 180 500 2500 self = (Ret 2500, self).
Proof.
  split; [|split; [|repeat split]].
  - intros x a b c d Hne. unfold mapRange_spec.
    rewrite Qfloor_div_Z by lia.
    method_unfold. zbool. reflexivity.
  - intros x a b c d Hne exact floored.
    replace floored with ((x - a) * (d - c) / (b - a))
      by (unfold floored, mapRange_spec; rewrite Qfloor_div_Z by lia; lia).
    apply map_range_quotient_bounds. lia.
Qed.

Lemma map_range_floor_witness :
  _map_range (-7) 10 4 0 5 fresh = (Ret 14, fresh) /\
  mapRange_spec (-7) 10 4 0 5 = 14.
Proof.
  split.
  - exact (proj1 (map_range_floor fresh) (-7) 10 4 0 5 ltac:(lia)).
  - reflexivity.
Defined.

(** ** What each method computes *)

Section Runs.

Variable write_i2c_block_data : SMBus -> Z -> Z -> list Z -> bool.

Local Abbreviation _send_data := (_send_data write_i2c_block_data).
Local Abbreviation control_servo := (control_servo write_i2c_block_data).
Local Abbreviation control_motor := (control_motor write_i2c_block_data).
Local Abbreviation set_address := (set_address write_i2c_block_data).
Local Abbreviation run := (run write_i2c_block_data).
Local Abbreviation reachable := (reachable write_i2c_block_data).

Lemma send_data_run (data_0 : Z) (rest : list Z) (self : L9110) :
  _send_data (data_0 :: rest) self
  = (Ret (write_i2c_block_data (bus self) (address self) data_0 rest),
     record_write (mkBlockWrite (address self) data_0 rest) self).
Proof.
  method_unfold. cbn.
  now destruct (write_i2c_block_data _ _ _ _).
Qed.

Lemma control_servo_data_run (servo_id degree : Z) (self : L9110) :
  min_degree self <> max_degree self ->
  control_servo_data servo_id degree self
  = (Ret (servo_frame self servo_id degree), self).
Proof.
  intros Hne. method_unfold. cbn. zbool. cbn.
  unfold servo_frame, servo_pulse. now rewrite Z.add_0_r, Z.add_0_l.
Qed.

Lemma control_servo_data_raise (servo_id degree : Z) (self : L9110) :
  min_degree self = max_degree self ->
  control_servo_data servo_id degree self = (Raise ZeroDivisionError, self).
Proof.
  intros He. method_unfold. cbn. zbool. reflexivity.
Qed.

Lemma control_motor_data_run (motor_id percent direction : Z) (self : L9110) :
  control_motor_data motor_id percent direction self
  = (Ret (motor_frame motor_id percent direction), self).
Proof.
  method_unfold.
  change (100 - 0) with 100. change (255 - 0) with 255. cbn.
  unfold motor_frame, motor_speed. now rewrite Z.sub_0_r, !Z.add_0_r, Z.add_0_l.
Qed.

Lemma control_servo_run (servo_id degree : Z) (self : L9110) :
  min_degree self <> max_degree self ->
  min_degree self <= degree <= max_degree self ->
  control_servo servo_id degree self
  = (Ret (write_i2c_block_data (bus self) (address self) MODE_RC
            (tail (servo_frame self servo_id degree))),
     record_write
       (mkBlockWrite (address self) MODE_RC (tail (servo_frame self servo_id degree)))
       self).
Proof.
  intros Hne Hin.
  unfold control_servo, mbind, Method_bind, get_self. zbool. cbn.
  rewrite control_servo_data_run by assumption.
  unfold servo_frame at 1. now rewrite send_data_run.
Qed.

Lemma control_servo_reject (servo_id degree : Z) (self : L9110) :
  degree < min_degree self \/ max_degree self < degree ->
  control_servo servo_id degree self = (Ret false, self).
Proof.
  intros Hout.
  unfold control_servo, mbind, Method_bind, get_self.
  destruct Hout; zbool; cbn; now rewrite ?andb_false_r.
Qed.

Lemma control_motor_run (motor_id percent direction : Z) (self : L9110) :
  0 <= percent <= 100 ->
  direction = CW \/ direction = CCW ->
  control_motor motor_id percent direction self
  = (Ret (write_i2c_block_data (bus self) (address self) MODE_DC
            (tail (motor_frame motor_id percent direction))),
     record_write
       (mkBlockWrite (address self) MODE_DC
          (tail (motor_frame motor_id percent direction)))
       self).
Proof.
  intros Hin Hdir.
  unfold control_motor, mbind, Method_bind. zbool. cbn.
  replace ((direction =? CW) || (direction =? CCW)) with true
    by (destruct Hdir; subst; reflexivity).
  cbn. rewrite control_motor_data_run.
  unfold motor_frame at 1. now rewrite send_data_run.
Qed.

Lemma control_motor_reject (motor_id percent direction : Z) (self : L9110) :
  (percent < 0 \/ 100 < percent) \/ (direction <> CW /\ direction <> CCW) ->
  control_motor motor_id percent direction self = (Ret false, self).
Proof.
  intros Hbad. unfold control_motor.
  destruct ((0 <=? percent) && (percent <=? 100)) eqn:Hp; cbn; [|reflexivity].
  destruct Hbad as [Hout | [Hcw Hccw]].
  - apply andb_true_iff in Hp as [H0 H100].
    apply Z.leb_le in H0. apply Z.leb_le in H100. lia.
  - apply Z.eqb_neq in Hcw. apply Z.eqb_neq in Hccw.
    now rewrite Hcw, Hccw.
Qed.

Lemma set_address_run (new_address : Z) (self : L9110) :
  0x40 <= new_address <= 0x44 ->
  let w := mkBlockWrite (address self) MODE_SET_ADDR
             (tail (set_address_data new_address)) in
  set_address new_address self
  = if write_i2c_block_data (bus self) (address self) MODE_SET_ADDR
         (tail (set_address_data new_address))
    then (Ret true, with_address new_address (record_write w self))
    else (Ret false, record_write w self).
Proof.
  intros Hin w.
  unfold set_address, mbind, Method_bind. zbool. cbn.
  unfold set_address_data. rewrite send_data_run. cbn.
  now destruct (write_i2c_block_data _ _ _ _).
Qed.

Lemma set_address_reject (new_address : Z) (self : L9110) :
  new_address < 0x40 \/ 0x44 < new_address ->
  set_address new_address self = (Ret false, self).
Proof.
  intros Hout. unfold set_address.
  destruct Hout; zbool; cbn; now rewrite ?andb_false_r.
Qed.

End Runs.

(** ** The claims *)

Section Claims.

Variable write_i2c_block_data : SMBus -> Z -> Z -> list Z -> bool.

Local Abbreviation _send_data := (_send_data write_i2c_block_data).
Local Abbreviation control_servo := (control_servo write_i2c_block_data).
Local Abbreviation control_motor := (control_motor write_i2c_block_data).
Local Abbreviation set_address := (set_address write_i2c_block_data).
Local Abbreviation run := (run write_i2c_block_data).
Local Abbreviation reachable := (reachable write_i2c_block_data).

Lemma servo_frame_checksum (self : L9110) (servo_id degree : Z) :
  checksum_ok (servo_frame self servo_id degree).
Proof. unfold checksum_ok, servo_frame. eauto. Qed.

Lemma motor_frame_checksum (motor_id percent direction : Z) :
  checksum_ok (motor_frame motor_id percent direction).
Proof. unfold checksum_ok, motor_frame. eauto. Qed.

Lemma written_not_longer (l : list BlockWrite) (w : BlockWrite) :
  l <> l ++ [w].
Proof.
  intros E. apply (f_equal length) in E.
  rewrite length_app in E. cbn in E. lia.
Qed.

(** [control_servo] either leaves the object as it is, or requests exactly
    one write: the frame of [servo_frame], byte 0 as the register. *)
Lemma control_servo_cases (servo_id degree : Z) (self : L9110) :
  snd (control_servo servo_id degree self) = self \/
  control_servo servo_id degree self
  = (Ret (write_i2c_block_data (bus self) (address self) MODE_RC
            (tail (servo_frame self servo_id degree))),
     record_write
       (mkBlockWrite (address self) MODE_RC (tail (servo_frame self servo_id degree)))
       self).
Proof.
  destruct (Z_lt_dec degree (min_degree self)) as [Hlo|Hlo];
    [left; rewrite control_servo_reject by lia; reflexivity|].
  destruct (Z_lt_dec (max_degree self) degree) as [Hhi|Hhi];
    [left; rewrite control_servo_reject by lia; reflexivity|].
  destruct (Z.eq_dec (min_degree self) (max_degree self)) as [He|Hne].
  - left. unfold control_servo, mbind, Method_bind, get_self.
    zbool. cbn. now rewrite control_servo_data_raise.
  - right. apply control_servo_run; [assumption | lia].
Qed.

Lemma control_motor_cases (motor_id percent direction : Z) (self : L9110) :
  snd (control_motor motor_id percent direction self) = self \/
  control_motor motor_id percent direction self
  = (Ret (write_i2c_block_data (bus self) (address self) MODE_DC
            (tail (motor_frame motor_id percent direction))),
     record_write
       (mkBlockWrite (address self) MODE_DC
          (tail (motor_frame motor_id percent direction)))
       self).
Proof.
  destruct (Z_lt_dec percent 0) as [Hlo|Hlo];
    [left; rewrite control_motor_reject by lia; reflexivity|].
  destruct (Z_lt_dec 100 percent) as [Hhi|Hhi];
    [left; rewrite control_motor_reject by lia; reflexivity|].
  destruct (Z.eq_dec direction CW) as [Hcw|Hcw];
    [right; apply control_motor_run; [lia | now left]|].
  destruct (Z.eq_dec direction CCW) as [Hccw|Hccw];
    [right; apply control_motor_run; [lia | now right]|].
  left. rewrite control_motor_reject; [reflexivity | now right].
Qed.

(** C1. Every frame that [control_servo] and [control_motor] assemble,
    and every frame they hand to the bus, has as byte 4 the additive 8-bit
    checksum [(frame[0] + frame[1] + frame[2] + frame[3]) & 0xFF]. *)
Theorem frame_checksum (self : L9110) :
  (forall servo_id degree data self',
      control_servo_data servo_id degree self = (Ret data, self') ->
      checksum_ok data) /\
  (forall motor_id percent direction data self',
      control_motor_data motor_id percent direction self = (Ret data, self') ->
      checksum_ok data) /\
  (forall servo_id degree w,
      written (bus (snd (control_servo servo_id degree self)))
      = written (bus self) ++ [w] ->
      checksum_ok (register w :: block w)) /\
  (forall motor_id percent direction w,
      written (bus (snd (control_motor motor_id percent direction self)))
      = written (bus self) ++ [w] ->
      checksum_ok (register w :: block w)).
Proof.
  repeat split.
  - intros servo_id degree data self' Hrun.
    destruct (Z.eq_dec (min_degree self) (max_degree self)) as [He|Hne].
    + rewrite control_servo_data_raise in Hrun by assumption. discriminate.
    + rewrite control_servo_data_run in Hrun by assumption.
      injection Hrun as <- _. apply servo_frame_checksum.
  - intros motor_id percent direction data self' Hrun.
    rewrite control_motor_data_run in Hrun.
    injection Hrun as <- _. apply motor_frame_checksum.
  - intros servo_id degree w Hw.
    destruct (control_servo_cases servo_id degree self) as [Hsame|Hrun].
    + rewrite Hsame in Hw. now apply written_not_longer in Hw.
    + rewrite Hrun in Hw. cbn in Hw.
      apply app_inv_head in Hw. injection Hw as <-.
      apply (servo_frame_checksum self servo_id degree).
  - intros motor_id percent direction w Hw.
    destruct (control_motor_cases motor_id percent direction self) as [Hsame|Hrun].
    + rewrite Hsame in Hw. now apply written_not_longer in Hw.
    + rewrite Hrun in Hw. cbn in Hw.
      apply app_inv_head in Hw. injection Hw as <-.
      apply (motor_frame_checksum motor_id percent direction).
Qed.

(** C2. For [0x40 <= new_address <= 0x44] the frame of [set_address] is
    [[2; 0; 0; 0; (new_address + 2) & 0xFF]]: the last byte carries the new
    address plus the mode code, not the sum of the four bytes before it; and
    this is the frame handed to the bus, at the address stored so far. *)
Theorem set_address_frame (new_address : Z) (self : L9110) :
  0x40 <= new_address <= 0x44 ->
  set_address_data new_address
  = [MODE_SET_ADDR; 0; 0; 0; Z.land (new_address + MODE_SET_ADDR) 0xFF] /\
  ~ checksum_ok (set_address_data new_address) /\
  written (bus (snd (set_address new_address self)))
  = written (bus self)
    ++ [mkBlockWrite (address self) MODE_SET_ADDR
          [0; 0; 0; Z.land (new_address + MODE_SET_ADDR) 0xFF]].
Proof.
  intros Hin.
  assert (Hmask : Z.land (new_address + MODE_SET_ADDR) 0xFF
                  = new_address + MODE_SET_ADDR).
  { change 0xFF with (Z.ones 8). rewrite Z.land_ones by lia.
    apply Z.mod_small. unfold MODE_SET_ADDR. lia. }
  rewrite Hmask. repeat split.
  - intros (b0 & b1 & b2 & b3 & E). unfold set_address_data in E.
    injection E as <- <- <- <- E. unfold MODE_SET_ADDR in E.
    change (Z.land (2 + 0 + 0 + 0) 255) with 2 in E. lia.
  - rewrite set_address_run by assumption.
    now destruct (write_i2c_block_data _ _ _ _).
Qed.

(** C4. For a valid [new_address], [set_address] stores it exactly when
    the write of the frame completes; when the write raises [IOError] the
    stored address is the one from before, and the result is [False]. *)
Theorem set_address_after_transmit (new_address : Z) (self : L9110) :
  0x40 <= new_address <= 0x44 ->
  let sent := write_i2c_block_data (bus self) (address self) MODE_SET_ADDR
                [0; 0; 0; new_address + MODE_SET_ADDR] in
  fst (set_address new_address self) = Ret sent /\
  address (snd (set_address new_address self))
  = (if sent then new_address else address self) /\
  (address self <> new_address ->
   (address (snd (set_address new_address self)) = new_address <-> sent = true)).
Proof.
  intros Hin sent. rewrite set_address_run by assumption.
  change (tail (set_address_data new_address))
    with [0; 0; 0; new_address + MODE_SET_ADDR].
  fold sent. destruct sent; cbn; repeat split; try congruence.
Qed.

Lemma set_range_degree_accept (mn mx : Z) (self : L9110) :
  0 <= mn /\ mn < mx /\ mx <= 360 ->
  set_range_degree mn mx self
  = (Ret true,
     {| address := address self; bus := bus self;
        min_degree := mn; max_degree := mx;
        min_pulse := min_pulse self; max_pulse := max_pulse self |}).
Proof. intros Hok. unfold set_range_degree. zbool. reflexivity. Qed.

Lemma set_range_degree_reject (mn mx : Z) (self : L9110) :
  ~ (0 <= mn /\ mn < mx /\ mx <= 360) ->
  set_range_degree mn mx self = (Ret false, self).
Proof.
  intros Hbad. unfold set_range_degree.
  destruct (0 <=? mn) eqn:H0; [|reflexivity].
  destruct (mn <? mx) eqn:H1; [|reflexivity].
  destruct (mx <=? 360) eqn:H2; [|reflexivity].
  apply Z.leb_le in H0. apply Z.ltb_lt in H1. apply Z.leb_le in H2.
  tauto.
Qed.

Lemma set_range_pulse_accept (mn mx : Z) (self : L9110) :
  0 <= mn /\ mn < mx /\ mx <= 2815 ->
  set_range_pulse mn mx self
  = (Ret true,
     {| address := address self; bus := bus self;
        min_degree := min_degree self; max_degree := max_degree self;
        min_pulse := mn; max_pulse := mx |}).
Proof. intros Hok. unfold set_range_pulse. zbool. reflexivity. Qed.

Lemma set_range_pulse_reject (mn mx : Z) (self : L9110) :
  ~ (0 <= mn /\ mn < mx /\ mx <= 2815) ->
  set_range_pulse mn mx self = (Ret false, self).
Proof.
  intros Hbad. unfold set_range_pulse.
  destruct (0 <=? mn) eqn:H0; [|reflexivity].
  destruct (mn <? mx) eqn:H1; [|reflexivity].
  destruct (mx <=? 2815) eqn:H2; [|reflexivity].
  apply Z.leb_le in H0. apply Z.ltb_lt in H1. apply Z.leb_le in H2.
  tauto.
Qed.

(** C5. [set_range_degree] returns [True] and stores both bounds exactly
    when [0 <= min < max <= 360], [set_range_pulse] exactly when
    [0 <= min < max <= 2815]; on every other input each returns [False] and
    the object is as before. *)
Theorem set_range_exact (mn mx : Z) (self : L9110) :
  (0 <= mn /\ mn < mx /\ mx <= 360 ->
   set_range_degree mn mx self
   = (Ret true,
      {| address := address self; bus := bus self;
         min_degree := mn; max_degree := mx;
         min_pulse := min_pulse self; max_pulse := max_pulse self |})) /\
  (~ (0 <= mn /\ mn < mx /\ mx <= 360) ->
   set_range_degree mn mx self = (Ret false, self)) /\
  (0 <= mn /\ mn < mx /\ mx <= 2815 ->
   set_range_pulse mn mx self
   = (Ret true,
      {| address := address self; bus := bus self;
         min_degree := min_degree self; max_degree := max_degree self;
         min_pulse := mn; max_pulse := mx |})) /\
  (~ (0 <= mn /\ mn < mx /\ mx <= 2815) ->
   set_range_pulse mn mx self = (Ret false, self)).
Proof.
  split; [|split; [|split]].
  - apply set_range_degree_accept.
  - apply set_range_degree_reject.
  - apply set_range_pulse_accept.
  - apply set_range_pulse_reject.
Qed.

(** C6. When a validation fails (degree outside the stored degree range,
    percent outside 0..100, direction neither [CW] nor [CCW], new address
    outside 0x40..0x44) the method returns [False] and the whole object,
    the list of writes requested on its bus included, is as before. *)
Theorem validation_failure_is_local (self : L9110) :
  (forall servo_id degree,
      degree < min_degree self \/ max_degree self < degree ->
      control_servo servo_id degree self = (Ret false, self)) /\
  (forall motor_id percent direction,
      percent < 0 \/ 100 < percent ->
      control_motor motor_id percent direction self = (Ret false, self)) /\
  (forall motor_id percent direction,
      direction <> CW -> direction <> CCW ->
      control_motor motor_id percent direction self = (Ret false, self)) /\
  (forall new_address,
      new_address < 0x40 \/ 0x44 < new_address ->
      set_address new_address self = (Ret false, self)).
Proof.
  repeat split.
  - intros. now apply control_servo_reject.
  - intros. apply control_motor_reject. now left.
  - intros. apply control_motor_reject. now right.
  - intros. now apply set_address_reject.
Qed.

(** C7. On the default ranges (degrees 0..180, pulses 500..2500)
    [control_servo(S1, 90)] maps 90 to the pulse 1500 = 0x05DC, assembles
    [[0; 1; 5; 220; 226]] (high byte 5, low byte 220, checksum 226) and
    hands it to the bus. *)
Theorem control_servo_S1_90 (a : Z) (b : SMBus) :
  let self := {| address := a; bus := b;
                 min_degree := 0; max_degree := 180;
                 min_pulse := 500; max_pulse := 2500 |} in
  _map_range 90 0 180 500 2500 self = (Ret 1500, self) /\
  (1500 ≫ 8 = 5 /\ Z.land 1500 0xFF = 220) /\
  control_servo_data S1 90 self
  = (Ret [0; 1; 5; 220; Z.land (0 + 1 + 5 + 220) 0xFF], self) /\
  control_servo S1 90 self
  = (Ret (write_i2c_block_data b a 0 [1; 5; 220; 226]),
     record_write (mkBlockWrite a 0 [1; 5; 220; 226]) self).
Proof.
  intros self. split; [reflexivity|]. split; [now split|].
  split; [reflexivity|].
  now rewrite control_servo_run by (cbn; lia).
Qed.

(** C8. [control_motor(MA, 50, CW)] maps 50 percent to the speed byte
    127, assembles [[1; 0; 127; 0; 128]] (direction byte 0, checksum 128)
    and hands it to the bus. *)
Theorem control_motor_MA_50_CW (self : L9110) :
  _map_range 50 0 100 0 255 self = (Ret 127, self) /\
  control_motor_data MA 50 CW self
  = (Ret [1; 0; 127; CW; Z.land (1 + 0 + 127 + 0) 0xFF], self) /\
  control_motor MA 50 CW self
  = (Ret (write_i2c_block_data (bus self) (address self) 1 [0; 127; 0; 128]),
     record_write (mkBlockWrite (address self) 1 [0; 127; 0; 128]) self).
Proof.
  split; [reflexivity|]. split; [reflexivity|].
  now rewrite control_motor_run by (try lia; now left).
Qed.

Lemma set_address_cases (new_address : Z) (self : L9110) :
  snd (set_address new_address self) = self \/
  written (bus (snd (set_address new_address self)))
  = written (bus self)
    ++ [mkBlockWrite (address self) MODE_SET_ADDR
          [0; 0; 0; new_address + MODE_SET_ADDR]].
Proof.
  destruct (Z_lt_dec new_address 0x40) as [Hlo|Hlo];
    [left; rewrite set_address_reject by lia; reflexivity|].
  destruct (Z_lt_dec 0x44 new_address) as [Hhi|Hhi];
    [left; rewrite set_address_reject by lia; reflexivity|].
  right. rewrite set_address_run by lia.
  now destruct (write_i2c_block_data _ _ _ _).
Qed.

(** Every call either requests no write, or exactly one: at the stored
    address, with the mode code as register and four bytes as block. *)
Lemma run_written (c : call) (self : L9110) :
  written (bus (snd (run c self))) = written (bus self) \/
  exists m b1 b2 b3 b4,
    mode_of c = Some m /\
    written (bus (snd (run c self)))
    = written (bus self) ++ [mkBlockWrite (address self) m [b1; b2; b3; b4]].
Proof.
  destruct c as [mn mx|mn mx|servo_id degree|motor_id percent direction|a];
    unfold run.
  - left. unfold set_range_degree.
    now destruct (negb _).
  - left. unfold set_range_pulse.
    now destruct (negb _).
  - destruct (control_servo_cases servo_id degree self) as [-> | ->];
      [now left|right].
    unfold servo_frame. cbn. eauto 10.
  - destruct (control_motor_cases motor_id percent direction self) as [-> | ->];
      [now left|right].
    unfold motor_frame. cbn. eauto 10.
  - destruct (set_address_cases a self) as [-> | ->]; [now left|right].
    cbn. eauto 10.
Qed.

(** C9, as the code has it. Every transmission hands byte 0 of the frame
    to the bus as the register argument and the other four bytes of the
    frame, bytes 1 to 4, as the block: a block of exactly 4 bytes. *)
Theorem transmit_register_and_block (self : L9110) :
  (forall b0 b1 b2 b3 b4,
      _send_data [b0; b1; b2; b3; b4] self
      = (Ret (write_i2c_block_data (bus self) (address self) b0 [b1; b2; b3; b4]),
         record_write (mkBlockWrite (address self) b0 [b1; b2; b3; b4]) self)) /\
  (forall c w,
      written (bus (snd (run c self))) = written (bus self) ++ [w] ->
      mode_of c = Some (register w) /\
      i2c_addr w = address self /\
      length (block w) = 4%nat) /\
  (forall c,
      written (bus (snd (run c self))) = written (bus self) \/
      exists w, written (bus (snd (run c self))) = written (bus self) ++ [w]).
Proof.
  split; [|split].
  - intros. apply send_data_run.
  - intros c w Hw.
    destruct (run_written c self) as [Hsame|(m & b1 & b2 & b3 & b4 & Hm & Hrun)].
    + rewrite Hsame in Hw. now apply written_not_longer in Hw.
    + rewrite Hrun in Hw. apply app_inv_head in Hw. injection Hw as <-.
      now rewrite Hm.
  - intros c.
    destruct (run_written c self) as [Hsame|(m & b1 & b2 & b3 & b4 & _ & Hrun)];
      [now left|right; eauto].
Qed.

(** ** The configuration invariant *)

Lemma record_write_config (w : BlockWrite) (self : L9110) :
  config_ok self -> config_ok (record_write w self).
Proof. now unfold config_ok, record_write. Qed.

Lemma run_config_ok (c : call) (self : L9110) :
  config_ok self -> config_ok (snd (run c self)).
Proof.
  intros Hok.
  destruct c as [mn mx|mn mx|servo_id degree|motor_id percent direction|a];
    unfold run.
  - destruct (Z_le_dec 0 mn) as [H0|H0];
      [|rewrite set_range_degree_reject by tauto; exact Hok].
    destruct (Z_lt_dec mn mx) as [H1|H1];
      [|rewrite set_range_degree_reject by tauto; exact Hok].
    destruct (Z_le_dec mx 360) as [H2|H2];
      [|rewrite set_range_degree_reject by tauto; exact Hok].
    rewrite set_range_degree_accept by tauto.
    unfold config_ok in *. cbn. tauto.
  - destruct (Z_le_dec 0 mn) as [H0|H0];
      [|rewrite set_range_pulse_reject by tauto; exact Hok].
    destruct (Z_lt_dec mn mx) as [H1|H1];
      [|rewrite set_range_pulse_reject by tauto; exact Hok].
    destruct (Z_le_dec mx 2815) as [H2|H2];
      [|rewrite set_range_pulse_reject by tauto; exact Hok].
    rewrite set_range_pulse_accept by tauto.
    unfold config_ok in *. cbn. tauto.
  - destruct (control_servo_cases servo_id degree self) as [-> | ->];
      [exact Hok|now apply record_write_config].
  - destruct (control_motor_cases motor_id percent direction self) as [-> | ->];
      [exact Hok|now apply record_write_config].
  - destruct (Z_lt_dec a 0x40) as [Hlo|Hlo];
      [rewrite set_address_reject by lia; exact Hok|].
    destruct (Z_lt_dec 0x44 a) as [Hhi|Hhi];
      [rewrite set_address_reject by lia; exact Hok|].
    rewrite set_address_run by lia.
    destruct (write_i2c_block_data _ _ _ _); exact Hok.
Qed.

(** Every object a program can reach satisfies the invariant. *)
Lemma reachable_config_ok (self : L9110) :
  reachable self -> config_ok self.
Proof.
  induction 1 as [a n|c self _ IH].
  - unfold config_ok, __init__. cbn. lia.
  - now apply run_config_ok.
Qed.

(** C10. Neither motion command looks at its channel argument: on any
    reachable object, for every integer [servo_id] and in-range degree, and
    for every integer [motor_id] with in-range percent and a direction in
    [CW], [CCW], the frame is assembled with byte 1 equal to the channel
    given and handed to the bus. *)
Theorem channel_not_validated (self : L9110) :
  reachable self ->
  (forall servo_id degree,
      min_degree self <= degree <= max_degree self ->
      exists b2 b3 b4,
        control_servo_data servo_id degree self
        = (Ret [MODE_RC; servo_id; b2; b3; b4], self) /\
        control_servo servo_id degree self
        = (Ret (write_i2c_block_data (bus self) (address self) MODE_RC
                  [servo_id; b2; b3; b4]),
           record_write
             (mkBlockWrite (address self) MODE_RC [servo_id; b2; b3; b4]) self)) /\
  (forall motor_id percent direction,
      0 <= percent <= 100 ->
      direction = CW \/ direction = CCW ->
      exists b2 b3 b4,
        control_motor_data motor_id percent direction self
        = (Ret [MODE_DC; motor_id; b2; b3; b4], self) /\
        control_motor motor_id percent direction self
        = (Ret (write_i2c_block_data (bus self) (address self) MODE_DC
                  [motor_id; b2; b3; b4]),
           record_write
             (mkBlockWrite (address self) MODE_DC [motor_id; b2; b3; b4]) self)).
Proof.
  intros Hreach.
  pose proof (reachable_config_ok self Hreach) as [(_ & Hdeg & _) _].
  split.
  - intros servo_id degree Hin.
    rewrite control_servo_data_run, control_servo_run by lia.
    unfold servo_frame. cbn. eauto.
  - intros motor_id percent direction Hin Hdir.
    rewrite control_motor_data_run, control_motor_run by assumption.
    unfold motor_frame. cbn. eauto.
Qed.

End Claims.

(** ** The claims at concrete inputs *)

Lemma frame_checksum_witness :
  checksum_ok [0; 1; 5; 220; 226] /\ checksum_ok [1; 0; 127; 0; 128].
Proof.
  split.
  - exact (proj1 (frame_checksum bus_up fresh) S1 90 [0; 1; 5; 220; 226] fresh
             eq_refl).
  - exact (proj1 (proj2 (frame_checksum bus_up fresh)) MA 50 CW
             [1; 0; 127; 0; 128] fresh eq_refl).
Defined.

Lemma set_address_frame_witness :
  0x40 <= 0x41 <= 0x44 /\
  set_address_data 0x41 = [2; 0; 0; 0; 67] /\
  written (bus (snd (set_address bus_up 0x41 fresh)))
  = [mkBlockWrite 0x40 2 [0; 0; 0; 67]].
Proof.
  assert (Hin : 0x40 <= 0x41 <= 0x44) by lia.
  destruct (set_address_frame bus_up 0x41 fresh Hin) as (Hframe & _ & Hsent).
  split; [exact Hin|]. split; [exact Hframe | exact Hsent].
Defined.

Lemma set_address_after_transmit_witness :
  address (snd (set_address bus_up 0x41 fresh)) = 0x41 /\
  address (snd (set_address bus_down 0x41 fresh)) = 0x40.
Proof.
  assert (Hin : 0x40 <= 0x41 <= 0x44) by lia.
  split.
  - exact (proj1 (proj2 (set_address_after_transmit bus_up 0x41 fresh Hin))).
  - exact (proj1 (proj2 (set_address_after_transmit bus_down 0x41 fresh Hin))).
Defined.

Lemma set_range_exact_witness :
  max_degree (snd (set_range_degree 10 90 fresh)) = 90 /\
  set_range_degree 90 10 fresh = (Ret false, fresh) /\
  min_pulse (snd (set_range_pulse 600 2815 fresh)) = 600 /\
  set_range_pulse 600 2816 fresh = (Ret false, fresh).
Proof.
  destruct (set_range_exact 10 90 fresh) as (Hd & _ & _ & _).
  destruct (set_range_exact 90 10 fresh) as (_ & Hd' & _ & _).
  destruct (set_range_exact 600 2815 fresh) as (_ & _ & Hp & _).
  destruct (set_range_exact 600 2816 fresh) as (_ & _ & _ & Hp').
  split; [rewrite Hd by lia; reflexivity|].
  split; [apply Hd'; lia|].
  split; [rewrite Hp by lia; reflexivity|].
  apply Hp'; lia.
Defined.

Lemma validation_failure_is_local_witness :
  control_servo bus_up S1 181 fresh = (Ret false, fresh) /\
  control_motor bus_up MA 101 CW fresh = (Ret false, fresh) /\
  control_motor bus_up MA 50 2 fresh = (Ret false, fresh) /\
  set_address bus_up 0x45 fresh = (Ret false, fresh).
Proof.
  destruct (validation_failure_is_local bus_up fresh) as (Hs & Hp & Hd & Ha).
  split; [apply Hs; cbn; lia|].
  split; [apply Hp; lia|].
  split; [apply Hd; unfold CW, CCW; lia|].
  apply Ha; lia.
Defined.

(** C9 as stated fails: the block [control_servo(S1, 90)] hands to the
    bus has four bytes, not three. *)
Lemma block_has_four_bytes_not_three :
  exists w,
    written (bus (snd (control_servo bus_up S1 90 fresh))) = [w] /\
    register w = 0 /\
    block w = [1; 5; 220; 226] /\
    length (block w) <> 3%nat.
Proof.
  exists (mkBlockWrite 0x40 0 [1; 5; 220; 226]).
  repeat split; cbn; lia.
Qed.

Lemma transmit_register_and_block_witness :
  length (block (mkBlockWrite 0x40 1 [0; 127; 0; 128])) = 4%nat.
Proof.
  exact (proj2 (proj2
    (proj1 (proj2 (transmit_register_and_block bus_up fresh))
       (ControlMotor MA 50 CW) (mkBlockWrite 0x40 1 [0; 127; 0; 128])
       eq_refl))).
Defined.

Lemma channel_not_validated_witness :
  reachable bus_up narrowed /\
  (exists b2 b3 b4,
      control_servo bus_up 7 45 narrowed
      = (Ret true, record_write (mkBlockWrite 0x40 0 [7; b2; b3; b4]) narrowed)) /\
  (exists b2 b3 b4,
      control_motor bus_up (-3) 50 CCW narrowed
      = (Ret true, record_write (mkBlockWrite 0x40 1 [-3; b2; b3; b4]) narrowed)).
Proof.
  assert (Hreach : reachable bus_up narrowed)
    by (apply reach_call, reach_init).
  destruct (channel_not_validated bus_up narrowed Hreach) as [Hservo Hmotor].
  split; [exact Hreach|]. split.
  - destruct (Hservo 7 45) as (b2 & b3 & b4 & _ & Hrun);
      [change (10 <= 45 <= 90); lia|].
    exists b2, b3, b4. exact Hrun.
  - destruct (Hmotor (-3) 50 CCW) as (b2 & b3 & b4 & _ & Hrun);
      [lia | now right |].
    exists b2, b3, b4. exact Hrun.
Defined.

(** * Further properties of the driver *)

(** ** Range mapping: end points, bounds, order *)

Lemma map_range_value (x in_min in_max out_min out_max : Z) (self : L9110) :
  in_max <> in_min ->
  _map_range x in_min in_max out_min out_max self
  = (Ret ((x - in_min) * (out_max - out_min) / (in_max - in_min) + out_min),
     self).
Proof. intros Hne. method_unfold. zbool. reflexivity. Qed.

(** X1. [_map_range] sends the two ends of the input range to the two
    ends of the output range, for input ranges of either orientation; on an
    ascending input range and a non-descending output range every input
    inside the range lands inside the output range. *)
Theorem map_range_ends_and_bounds
    (in_min in_max out_min out_max : Z) (self : L9110) :
  in_max <> in_min ->
  _map_range in_min in_min in_max out_min out_max self = (Ret out_min, self) /\
  _map_range in_max in_min in_max out_min out_max self = (Ret out_max, self) /\
  (in_min < in_max -> out_min <= out_max ->
   forall x, in_min <= x <= in_max ->
     exists r, _map_range x in_min in_max out_min out_max self = (Ret r, self) /\
               out_min <= r <= out_max).
Proof.
  intros Hne. rewrite !map_range_value by assumption. repeat split.
  - now rewrite Z.sub_diag, Z.mul_0_l, Z.div_0_l by lia.
  - rewrite Z.mul_comm, Z.div_mul by lia. f_equal. f_equal. lia.
  - intros Hasc Hout x Hx. rewrite map_range_value by assumption.
    eexists. split; [reflexivity|]. split.
    + assert (0 <= (x - in_min) * (out_max - out_min) / (in_max - in_min))
        by (apply Z.div_pos; nia).
      lia.
    + assert ((x - in_min) * (out_max - out_min) / (in_max - in_min)
              <= out_max - out_min)
        by (apply Z.div_le_upper_bound; nia).
      lia.
Qed.

(** X2. On an ascending input range and a non-descending output range
    [_map_range] is monotone: a larger input never gives a smaller
    output. *)
Theorem map_range_monotone
    (x y in_min in_max out_min out_max : Z) (self : L9110) :
  in_min < in_max -> out_min <= out_max -> x <= y ->
  exists rx ry,
    _map_range x in_min in_max out_min out_max self = (Ret rx, self) /\
    _map_range y in_min in_max out_min out_max self = (Ret ry, self) /\
    rx <= ry.
Proof.
  intros Hasc Hout Hxy. rewrite !map_range_value by lia.
  do 2 eexists. split; [reflexivity|]. split; [reflexivity|].
  apply Z.add_le_mono_r, Z.div_le_mono; nia.
Qed.

(** ** The bytes of the frames *)

(** The two data bytes of a servo frame put together again give the pulse,
    whatever the pulse. *)
Lemma pulse_split_join (pulse : Z) :
  (pulse ≫ 8) * 256 + Z.land pulse 0xFF = pulse.
Proof.
  rewrite Z.shiftr_div_pow2 by lia.
  change 0xFF with (Z.ones 8). rewrite Z.land_ones by lia.
  change (2 ^ 8) with 256.
  pose proof (Z.div_mod pulse 256). lia.
Qed.

Lemma servo_pulse_bounds (self : L9110) (degree : Z) :
  config_ok self ->
  min_degree self <= degree <= max_degree self ->
  min_pulse self <= servo_pulse self degree <= max_pulse self.
Proof.
  intros [(Hd0 & Hd & Hd360) (Hp0 & Hp & Hp2815)] Hin. unfold servo_pulse.
  split.
  - assert (0 <= (degree - min_degree self) * (max_pulse self - min_pulse self)
                 / (max_degree self - min_degree self))
      by (apply Z.div_pos; nia).
    lia.
  - assert ((degree - min_degree self) * (max_pulse self - min_pulse self)
            / (max_degree self - min_degree self)
            <= max_pulse self - min_pulse self)
      by (apply Z.div_le_upper_bound; nia).
    lia.
Qed.

Lemma land_255_byte (x : Z) : is_byte (Z.land x 0xFF).
Proof.
  unfold is_byte. change (Z.land x 0xFF) with (Z.land x (Z.ones 8)).
  rewrite Z.land_ones by lia. change (2 ^ 8) with 256.
  pose proof (Z.mod_pos_bound x 256 ltac:(lia)). lia.
Qed.

Section More.

Variable write_i2c_block_data : SMBus -> Z -> Z -> list Z -> bool.

Local Abbreviation _send_data := (_send_data write_i2c_block_data).
Local Abbreviation control_servo := (control_servo write_i2c_block_data).
Local Abbreviation control_motor := (control_motor write_i2c_block_data).
Local Abbreviation set_address := (set_address write_i2c_block_data).
Local Abbreviation run := (run write_i2c_block_data).
Local Abbreviation run_all := (run_all write_i2c_block_data).
Local Abbreviation reachable := (reachable write_i2c_block_data).

(** X3. On an object that satisfies the configuration invariant, an
    in-range degree is mapped to a pulse inside the stored pulse range; the
    frame carries it split in a high byte of at most 10 and a low byte, both
    of which fit in a byte and which joined again ([high * 256 + low]) give
    the pulse back. *)
Theorem servo_frame_carries_pulse (servo_id degree : Z) (self : L9110) :
  config_ok self ->
  min_degree self <= degree <= max_degree self ->
  exists pulse high low check,
    _map_range degree (min_degree self) (max_degree self)
               (min_pulse self) (max_pulse self) self = (Ret pulse, self) /\
    control_servo_data servo_id degree self
    = (Ret [MODE_RC; servo_id; high; low; check], self) /\
    min_pulse self <= pulse <= max_pulse self /\
    0 <= high <= 10 /\ is_byte low /\ is_byte check /\
    high * 256 + low = pulse.
Proof.
  intros Hok Hin.
  pose proof (servo_pulse_bounds self degree Hok Hin) as Hp.
  destruct Hok as [(Hd0 & Hd & Hd360) (Hp0 & Hpp & Hp2815)].
  exists (servo_pulse self degree), (servo_pulse self degree ≫ 8),
    (Z.land (servo_pulse self degree) 0xFF).
  eexists. split; [apply map_range_value; lia|].
  split; [rewrite control_servo_data_run by lia; reflexivity|].
  split; [exact Hp|].
  split; [|split; [apply land_255_byte|split;
                   [apply land_255_byte|apply pulse_split_join]]].
  rewrite Z.shiftr_div_pow2 by lia. change (2 ^ 8) with 256.
  split; [apply Z.div_pos; lia|].
  assert (servo_pulse self degree / 256 < 11)
    by (apply Z.div_lt_upper_bound; lia).
  lia.
Qed.

(** X4. For a percent of 0..100 the speed byte of [control_motor] fits in
    a byte; it is 0 only for 0 percent and 255 only for 100 percent; with a
    channel that fits in a byte and a direction [CW] or [CCW], all five
    bytes of the frame fit in a byte. *)
Theorem motor_frame_bytes (motor_id percent direction : Z) (self : L9110) :
  0 <= percent <= 100 ->
  exists speed check,
    control_motor_data motor_id percent direction self
    = (Ret [MODE_DC; motor_id; speed; direction; check], self) /\
    is_byte speed /\
    (speed = 0 <-> percent = 0) /\
    (speed = 255 <-> percent = 100) /\
    (is_byte motor_id -> direction = CW \/ direction = CCW ->
     Forall is_byte [MODE_DC; motor_id; speed; direction; check]).
Proof.
  intros Hin. exists (motor_speed percent). eexists.
  split; [rewrite control_motor_data_run; reflexivity|].
  assert (Hdiv : percent * 255 = 100 * motor_speed percent
                                 + (percent * 255) mod 100)
    by (unfold motor_speed; apply Z.div_mod; lia).
  pose proof (Z.mod_pos_bound (percent * 255) 100 ltac:(lia)) as Hmod.
  assert (Hspeed : is_byte (motor_speed percent)) by (unfold is_byte; lia).
  split; [exact Hspeed|]. split; [lia|]. split; [lia|].
  intros Hid Hdir.
  assert (is_byte MODE_DC) by (unfold is_byte, MODE_DC; lia).
  assert (is_byte direction) by (unfold is_byte, CW, CCW in *; lia).
  repeat (apply Forall_cons; [assumption || apply land_255_byte|]).
  apply Forall_nil.
Qed.

(** ** Results and exceptions *)





(** X7. The three commands return [True] exactly when the arguments pass
    the validation and the write of the frame completes: [False] stands
    both for a rejected argument and for an [IOError]. *)
Theorem commands_report_transmission (self : L9110) :
  config_ok self ->
  (forall servo_id degree,
      exists b, fst (control_servo servo_id degree self) = Ret b /\
        (b = true <->
         min_degree self <= degree <= max_degree self /\
         exists data,
           control_servo_data servo_id degree self = (Ret data, self) /\
           write_i2c_block_data (bus self) (address self) MODE_RC (tail data)
           = true)) /\
  (forall motor_id percent direction,
      exists b, fst (control_motor motor_id percent direction self) = Ret b /\
        (b = true <->
         0 <= percent <= 100 /\ (direction = CW \/ direction = CCW) /\
         exists data,
           control_motor_data motor_id percent direction self = (Ret data, self) /\
           write_i2c_block_data (bus self) (address self) MODE_DC (tail data)
           = true)) /\
  (forall new_address,
      exists b, fst (set_address new_address self) = Ret b /\
        (b = true <->
         0x40 <= new_address <= 0x44 /\
         write_i2c_block_data (bus self) (address self) MODE_SET_ADDR
           (tail (set_address_data new_address)) = true)).
Proof.
  intros [(Hd0 & Hd & Hd360) _]. split; [|split].
  - intros servo_id degree.
    destruct (Z_lt_dec degree (min_degree self));
      [rewrite control_servo_reject by lia; exists false;
       split; [reflexivity|split; [discriminate|lia]]|].
    destruct (Z_lt_dec (max_degree self) degree);
      [rewrite control_servo_reject by lia; exists false;
       split; [reflexivity|split; [discriminate|lia]]|].
    rewrite control_servo_run, control_servo_data_run by lia.
    eexists. split; [reflexivity|]. split.
    + intros Hb. split; [lia|]. eexists. split; [reflexivity|exact Hb].
    + intros (_ & data & Hdata & Hb). injection Hdata as <-. exact Hb.
  - intros motor_id percent direction.
    rewrite control_motor_data_run.
    destruct (Z_lt_dec percent 0);
      [rewrite control_motor_reject by lia; exists false;
       split; [reflexivity|split; [discriminate|lia]]|].
    destruct (Z_lt_dec 100 percent);
      [rewrite control_motor_reject by lia; exists false;
       split; [reflexivity|split; [discriminate|lia]]|].
    assert (Hgood : forall (Hdir : direction = CW \/ direction = CCW),
      exists b, fst (control_motor motor_id percent direction self) = Ret b /\
        (b = true <->
         0 <= percent <= 100 /\ (direction = CW \/ direction = CCW) /\
         exists data,
           (Ret (motor_frame motor_id percent direction), self)
           = (Ret data, self) /\
           write_i2c_block_data (bus self) (address self) MODE_DC (tail data)
           = true)).
    { intros Hdir. rewrite control_motor_run by (try lia; assumption).
      eexists. split; [reflexivity|]. split.
      - intros Hb. split; [lia|]. split; [assumption|].
        eexists. split; [reflexivity|exact Hb].
      - intros (_ & _ & data & Hdata & Hb). injection Hdata as <-. exact Hb. }
    destruct (Z.eq_dec direction CW); [apply Hgood; now left|].
    destruct (Z.eq_dec direction CCW); [apply Hgood; now right|].
    rewrite control_motor_reject by (now right). exists false.
    split; [reflexivity|]. split; [discriminate|].
    intros (_ & [?|?] & _); contradiction.
  - intros a.
    destruct (Z_lt_dec a 0x40);
      [rewrite set_address_reject by lia; exists false;
       split; [reflexivity|split; [discriminate|lia]]|].
    destruct (Z_lt_dec 0x44 a);
      [rewrite set_address_reject by lia; exists false;
       split; [reflexivity|split; [discriminate|lia]]|].
    rewrite set_address_run by lia.
    destruct (write_i2c_block_data _ _ _ _) eqn:Hsent.
    + exists true. split; [reflexivity|]. split; [intros _; split; [lia|reflexivity]|reflexivity].
    + exists false. split; [reflexivity|]. split; [discriminate|].
      intros (_ & Hb). discriminate.
Qed.

(** ** What a call leaves alone *)

(** X8. Each method touches only its own part of the object: the range
    setters leave the address, the bus and the other range as they were; the
    two motion commands leave the address and all four bounds; [set_address]
    leaves all four bounds. *)
Theorem calls_touch_only_their_part (self : L9110) :
  (forall mn mx,
      let self' := snd (set_range_degree mn mx self) in
      address self' = address self /\ bus self' = bus self /\
      min_pulse self' = min_pulse self /\ max_pulse self' = max_pulse self) /\
  (forall mn mx,
      let self' := snd (set_range_pulse mn mx self) in
      address self' = address self /\ bus self' = bus self /\
      min_degree self' = min_degree self /\ max_degree self' = max_degree self) /\
  (forall servo_id degree,
      let self' := snd (control_servo servo_id degree self) in
      address self' = address self /\ ranges self' = ranges self) /\
  (forall motor_id percent direction,
      let self' := snd (control_motor motor_id percent direction self) in
      address self' = address self /\ ranges self' = ranges self) /\
  (forall new_address,
      ranges (snd (set_address new_address self)) = ranges self).
Proof.
  split; [|split; [|split; [|split]]].
  - intros mn mx. unfold set_range_degree. now destruct (negb _).
  - intros mn mx. unfold set_range_pulse. now destruct (negb _).
  - intros servo_id degree.
    now destruct (control_servo_cases write_i2c_block_data servo_id degree self)
      as [-> | ->].
  - intros motor_id percent direction.
    now destruct (control_motor_cases write_i2c_block_data motor_id percent
                    direction self) as [-> | ->].
  - intros a.
    destruct (Z_lt_dec a 0x40);
      [now rewrite set_address_reject by lia|].
    destruct (Z_lt_dec 0x44 a);
      [now rewrite set_address_reject by lia|].
    rewrite set_address_run by lia.
    now destruct (write_i2c_block_data _ _ _ _).
Qed.

(** ** How the methods compose *)

(** X9. After both ranges have been set, [control_servo] works on the new
    bounds: it rejects the degrees outside the new degree range and maps the
    others linearly onto the new pulse range, the lowest degree to the lowest
    pulse and the highest to the highest. *)
Theorem servo_uses_new_ranges (mn mx pmn pmx : Z) (self : L9110) :
  0 <= mn /\ mn < mx /\ mx <= 360 ->
  0 <= pmn /\ pmn < pmx /\ pmx <= 2815 ->
  let self' := snd (set_range_pulse pmn pmx (snd (set_range_degree mn mx self))) in
  let frame servo_id pulse :=
    [MODE_RC; servo_id; pulse ≫ 8; Z.land pulse 0xFF;
     Z.land (MODE_RC + servo_id + pulse ≫ 8 + Z.land pulse 0xFF) 0xFF] in
  (forall servo_id degree,
      degree < mn \/ mx < degree ->
      control_servo servo_id degree self' = (Ret false, self')) /\
  (forall servo_id degree,
      mn <= degree <= mx ->
      written (bus (snd (control_servo servo_id degree self')))
      = written (bus self)
        ++ [mkBlockWrite (address self) MODE_RC
              (tail (frame servo_id ((degree - mn) * (pmx - pmn) / (mx - mn) + pmn)))]) /\
  (forall servo_id,
      control_servo_data servo_id mn self' = (Ret (frame servo_id pmn), self') /\
      control_servo_data servo_id mx self' = (Ret (frame servo_id pmx), self')).
Proof.
  intros Hdeg Hpulse self' frame.
  assert (Hself : self' = {| address := address self; bus := bus self;
                             min_degree := mn; max_degree := mx;
                             min_pulse := pmn; max_pulse := pmx |}).
  { unfold self'. rewrite set_range_degree_accept by assumption. cbn.
    now rewrite set_range_pulse_accept by assumption. }
  clearbody self'. subst self'. split; [|split].
  - intros servo_id degree Hout. now apply control_servo_reject.
  - intros servo_id degree Hin.
    now rewrite control_servo_run by (cbn; lia).
  - intros servo_id.
    rewrite !control_servo_data_run by (cbn; lia).
    unfold servo_frame, servo_pulse, frame. cbn.
    rewrite Z.sub_diag, Z.mul_0_l, Z.div_0_l by lia.
    rewrite (Z.mul_comm (mx - mn)), Z.div_mul by lia.
    rewrite Z.add_0_l. replace (pmx - pmn + pmn) with pmx by lia.
    now split.
Qed.

(** Every call requests at most one write, well formed and sent to the
    address stored at the time of the call. *)
Lemma run_new_write (c : call) (self : L9110) :
  exists l,
    written (bus (snd (run c self))) = written (bus self) ++ l /\
    (length l <= 1)%nat /\
    Forall (fun w => wf_write w /\ i2c_addr w = address self) l.
Proof.
  assert (Hnone : forall self' : L9110, self' = self ->
    exists l, written (bus self') = written (bus self) ++ l /\
      (length l <= 1)%nat /\
      Forall (fun w => wf_write w /\ i2c_addr w = address self) l).
  { intros self' ->. exists []. rewrite app_nil_r. cbn. auto. }
  destruct c as [mn mx|mn mx|servo_id degree|motor_id percent direction|a];
    unfold run.
  - exists []. rewrite app_nil_r. split; [|cbn; auto].
    unfold set_range_degree. now destruct (negb _).
  - exists []. rewrite app_nil_r. split; [|cbn; auto].
    unfold set_range_pulse. now destruct (negb _).
  - destruct (control_servo_cases write_i2c_block_data servo_id degree self)
      as [Hsame | ->]; [now apply Hnone|].
    eexists [_]. split; [reflexivity|]. split; [cbn; lia|].
    apply Forall_cons; [|apply Forall_nil]. split; [|reflexivity].
    left. split; [now left|]. apply (servo_frame_checksum self servo_id degree).
  - destruct (control_motor_cases write_i2c_block_data motor_id percent
                direction self) as [Hsame | ->]; [now apply Hnone|].
    eexists [_]. split; [reflexivity|]. split; [cbn; lia|].
    apply Forall_cons; [|apply Forall_nil]. split; [|reflexivity].
    left. split; [now right|].
    apply (motor_frame_checksum motor_id percent direction).
  - destruct (Z_lt_dec a 0x40);
      [apply Hnone; now rewrite set_address_reject by lia|].
    destruct (Z_lt_dec 0x44 a);
      [apply Hnone; now rewrite set_address_reject by lia|].
    rewrite set_address_run by lia.
    eexists [_]. split; [now destruct (write_i2c_block_data _ _ _ _)|].
    split; [cbn; lia|].
    apply Forall_cons; [|apply Forall_nil]. split; [|reflexivity].
    right. split; [reflexivity|]. exists a. split; [lia|reflexivity].
Qed.

Lemma run_address (c : call) (self : L9110) :
  address (snd (run c self)) = address self \/
  0x40 <= address (snd (run c self)) <= 0x44.
Proof.
  destruct c as [mn mx|mn mx|servo_id degree|motor_id percent direction|a];
    unfold run.
  - left. unfold set_range_degree. now destruct (negb _).
  - left. unfold set_range_pulse. now destruct (negb _).
  - left.
    now destruct (control_servo_cases write_i2c_block_data servo_id degree self)
      as [-> | ->].
  - left.
    now destruct (control_motor_cases write_i2c_block_data motor_id percent
                    direction self) as [-> | ->].
  - destruct (Z_lt_dec a 0x40);
      [left; now rewrite set_address_reject by lia|].
    destruct (Z_lt_dec 0x44 a);
      [left; now rewrite set_address_reject by lia|].
    rewrite set_address_run by lia.
    destruct (write_i2c_block_data _ _ _ _); cbn; [right; lia|now left].
Qed.


(** ** Clients: what holds after any sequence of calls *)

Lemma run_all_snoc (cs : list call) (c : call) (self : L9110) :
  run_all (cs ++ [c]) self = snd (run c (run_all cs self)).
Proof. unfold run_all. now rewrite foldl_snoc. Qed.

Lemma run_all_reachable (cs : list call) (self : L9110) :
  reachable self -> reachable (run_all cs self).
Proof.
  intros Hreach. induction cs as [|c cs IH] using rev_ind.
  - exact Hreach.
  - rewrite run_all_snoc. now apply reach_call.
Qed.

Lemma run_all_address (cs : list call) (self : L9110) :
  address_ok (address self) (address (run_all cs self)).
Proof.
  induction cs as [|c cs IH] using rev_ind.
  - now left.
  - rewrite run_all_snoc.
    destruct (run_address c (run_all cs self)) as [-> | Hin];
      [exact IH | now right].
Qed.

(** X11. Whatever calls a client makes, the bus only ever sees more
    writes, at most one per call, and each of them is well formed: a motion
    frame with a correct additive checksum or an address change to
    0x40..0x44, sent to the address the driver was constructed with or to
    one of 0x40..0x44. *)
Theorem client_trace_well_formed (cs : list call) (self : L9110) :
  exists l,
    written (bus (run_all cs self)) = written (bus self) ++ l /\
    (length l <= length cs)%nat /\
    Forall (fun w => wf_write w /\ length (block w) = 4%nat /\
                     address_ok (address self) (i2c_addr w)) l.
Proof.
  induction cs as [|c cs (l & Hl & Hlen & Hall)] using rev_ind.
  - exists []. rewrite app_nil_r. cbn. auto.
  - rewrite run_all_snoc.
    destruct (run_new_write c (run_all cs self)) as (l' & Hl' & Hlen' & Hall').
    exists (l ++ l'). rewrite Hl', Hl, <- app_assoc.
    split; [reflexivity|]. rewrite !length_app. split; [cbn; lia|].
    apply Forall_app. split; [exact Hall|].
    eapply Forall_impl; [|exact Hall'].
    intros w [Hwf ->]. split; [exact Hwf|]. split; [|apply run_all_address].
    destruct Hwf as [[_ (b0 & b1 & b2 & b3 & E)]|[_ (a & _ & ->)]];
      [|reflexivity].
    injection E as _ ->. reflexivity.
Qed.

(** X12. The stored address is always the one the driver was constructed
    with or one of 0x40..0x44; a driver constructed inside 0x40..0x44 never
    leaves that range. *)
Theorem client_address_in_range (cs : list call) (self : L9110) :
  address_ok (address self) (address (run_all cs self)) /\
  (0x40 <= address self <= 0x44 ->
   0x40 <= address (run_all cs self) <= 0x44).
Proof.
  destruct (run_all_address cs self) as [He | Hin]; split.
  - now left.
  - intros Hself. now rewrite He.
  - now right.
  - intros _. exact Hin.
Qed.

(** X13. The configuration invariant holds after any sequence of calls
    on a fresh driver: [0 <= min_degree < max_degree <= 360] and
    [0 <= min_pulse < max_pulse <= 2815], whatever bounds the client tried to
    set. *)
Theorem client_keeps_config (a n : Z) (cs : list call) :
  config_ok (run_all cs (__init__ a n)).
Proof.
  apply (reachable_config_ok write_i2c_block_data).
  apply run_all_reachable, reach_init.
Qed.


End More.


(** ** The further properties at concrete inputs *)

Lemma config_ok_fresh : config_ok fresh.
Proof. unfold config_ok, fresh, __init__. cbn. lia. Qed.

Lemma map_range_ends_and_bounds_witness :
  _map_range 180 180 0 500 2500 fresh = (Ret 500, fresh) /\
  _map_range 0 180 0 500 2500 fresh = (Ret 2500, fresh).
Proof.
  assert (Hne : 0 <> 180) by lia.
  destruct (map_range_ends_and_bounds 180 0 500 2500 fresh Hne)
    as (Hlow & Hhigh & _).
  split; [exact Hlow | exact Hhigh].
Defined.

Lemma map_range_monotone_witness :
  exists rx ry,
    _map_range 30 0 180 500 2500 fresh = (Ret rx, fresh) /\
    _map_range 31 0 180 500 2500 fresh = (Ret ry, fresh) /\
    rx <= ry.
Proof.
  exact (map_range_monotone 30 31 0 180 500 2500 fresh
           ltac:(lia) ltac:(lia) ltac:(lia)).
Defined.

Lemma servo_frame_carries_pulse_witness :
  config_ok fresh /\
  exists pulse high low check,
    _map_range 90 0 180 500 2500 fresh = (Ret pulse, fresh) /\
    control_servo_data S1 90 fresh
    = (Ret [MODE_RC; S1; high; low; check], fresh) /\
    high * 256 + low = pulse.
Proof.
  split; [exact config_ok_fresh|].
  destruct (servo_frame_carries_pulse S1 90 fresh config_ok_fresh)
    as (pulse & high & low & check & Hmap & Hdata & _ & _ & _ & _ & Hjoin).
  - change (0 <= 90 <= 180). lia.
  - exists pulse, high, low, check. repeat split; assumption.
Defined.

Lemma motor_frame_bytes_witness :
  exists speed check,
    control_motor_data MA 50 CW fresh
    = (Ret [MODE_DC; MA; speed; CW; check], fresh) /\
    is_byte speed.
Proof.
  destruct (motor_frame_bytes MA 50 CW fresh ltac:(lia))
    as (speed & check & Hdata & Hbyte & _).
  exists speed, check. split; assumption.
Defined.


Lemma commands_report_transmission_witness :
  exists b, fst (control_servo bus_down S1 90 fresh) = Ret b /\
    (b = true <->
     min_degree fresh <= 90 <= max_degree fresh /\
     exists data,
       control_servo_data S1 90 fresh = (Ret data, fresh) /\
       bus_down (bus fresh) (address fresh) MODE_RC (tail data) = true).
Proof.
  exact (proj1 (commands_report_transmission bus_down fresh config_ok_fresh)
           S1 90).
Defined.

Lemma servo_uses_new_ranges_witness :
  control_servo bus_up S1 9
    (snd (set_range_pulse 600 2400 (snd (set_range_degree 10 90 fresh))))
  = (Ret false,
     snd (set_range_pulse 600 2400 (snd (set_range_degree 10 90 fresh)))).
Proof.
  exact (proj1 (servo_uses_new_ranges bus_up 10 90 600 2400 fresh
                  ltac:(lia) ltac:(lia)) S1 9 ltac:(lia)).
Defined.

